(** * flask_sqlalchemy/base.py: table-name inference and instance representation

  A shallow embedding of the three pieces of [base.py]:

  - [camel_to_snake_case], the case converter;
  - [should_set_tablename] and [NameMixin.__tablename__], the decision
    procedure and the declared-attr hook;
  - [Base.__repr__], the representation formatter.

  Python [str] values are modelled by [string]; a character [c : ascii] stands
  for the code point of the same number, so the model covers exactly the
  strings whose code points lie below 256.  [str.lower] maps that range into
  itself, hence the model is closed under every operation used here.
  Module [Wide] repeats the converter over these code points and U+2102, an
  upper-case character that [str.lower] leaves as it is. *)

From Stdlib Require Import ZArith NArith Bool Ascii String DecimalString.
From Stdlib Require DecimalPos DecimalZ.
From stdpp Require Import base option list strings gmap.


(** ** Characters *)

Module Chars.

Definition code (c : ascii) : N := N_of_ascii c.

Definition in_range (lo hi : N) (c : ascii) : bool :=
  (lo <=? code c)%N && (code c <=? hi)%N.

(** The regular-expression classes [[A-Z]], [[a-z]] and [[a-z0-9]]. *)
Definition is_AZ (c : ascii) : bool := in_range 65 90 c.
Definition is_az (c : ascii) : bool := in_range 97 122 c.
Definition is_09 (c : ascii) : bool := in_range 48 57 c.
Definition is_az09 (c : ascii) : bool := is_az c || is_09 c.

Definition underscore : ascii := "_"%char.

(** [str.isupper] on one character below 256: A-Z, and the capital letters
    U+00C0..U+00DE without the multiplication sign U+00D7. *)
Definition isupper (c : ascii) : bool :=
  is_AZ c || (in_range 192 222 c && negb (code c =? 215)%N).

(** [str.lower] on one character below 256: every upper-case character moves
    up by 32, every other character stays. *)
Definition lower_char (c : ascii) : ascii :=
  if isupper c then ascii_of_N (code c + 32) else c.

End Chars.

(** ** The case converter *)

Import Chars.

(** [(?<=[a-z0-9])]: the character before the position is in [[a-z0-9]].
    [prev] is [None] at the start of the string. *)
Definition lookbehind_az09 (prev : option ascii) : bool :=
  match prev with
  | Some p => is_az09 p
  | None => false
  end.

(** [(?!^)]: the position is not the start of the string. *)
Definition not_at_start (prev : option ascii) : bool :=
  match prev with
  | Some _ => true
  | None => false
  end.

(** [(?=[a-z])]: the character after the match is in [[a-z]]. *)
Definition lookahead_az (rest : string) : bool :=
  match rest with
  | String d _ => is_az d
  | EmptyString => false
  end.

(** Does the pattern
    [((?<=[a-z0-9])[A-Z]|(?!^)[A-Z](?=[a-z]))]
    match the single character [c] standing between [prev] and [rest]? *)
Definition matches (prev : option ascii) (c : ascii) (rest : string) : bool :=
  (lookbehind_az09 prev && is_AZ c)
  || (not_at_start prev && is_AZ c && lookahead_az rest).

(** [re.sub(pattern, r"_\1", name)] scanning from a position whose previous
    character is [prev].  Every match is one character long and the
    look-arounds read the subject string, so the scan decides each position
    on its own and copies the unmatched characters. *)
Fixpoint sub_from (prev : option ascii) (name : string) : string :=
  match name with
  | EmptyString => EmptyString
  | String c rest =>
      if matches prev c rest
      then String underscore (String c (sub_from (Some c) rest))
      else String c (sub_from (Some c) rest)
  end.

Definition re_sub (name : string) : string := sub_from None name.

(** [str.lower], which works character by character on code points below
    256. *)
Fixpoint lower (s : string) : string :=
  match s with
  | EmptyString => EmptyString
  | String c rest => String (lower_char c) (lower rest)
  end.

(** [str.lstrip("_")]: drop every leading underscore. *)
Fixpoint lstrip_underscore (s : string) : string :=
  match s with
  | EmptyString => EmptyString
  | String c rest =>
      if Ascii.eqb c underscore then lstrip_underscore rest else s
  end.

Definition camel_to_snake_case (name : string) : string :=
  let name := re_sub name in
  lstrip_underscore (lower name).


(** ** Classes as the module observes them *)

Module Py.

(** A Python object [v] stored in a class [__dict__], reduced to what this
    module asks of it.  [truthy], [is_declared_attr] and [as_str] are read off
    [v] itself, as [cls.__dict__.get] and [base.__dict__[...]] hand it out.
    [primary_key] is read off what attribute access on the class yields for
    [v], as [cls.id] does: [v] itself when it is a plain object, and the value
    its function returns when it is a declared attr, since
    [declared_attr.__get__] calls the function. *)
Record pyval := {
  truthy : bool;              (* [bool(v)] *)
  is_declared_attr : bool;    (* [isinstance(v, sa.orm.declared_attr)] *)
  primary_key : option bool;  (* [bool(x.primary_key)] for the [x] that access yields, when [x] has the attribute *)
  as_str : option string;     (* the text, when [v] is a [str] *)
}.

Definition py_bool (b : bool) : pyval :=
  {| truthy := b; is_declared_attr := false; primary_key := None;
     as_str := None |}.
Definition py_str (s : string) : pyval :=
  {| truthy := negb (String.eqb s ""); is_declared_attr := false;
     primary_key := None; as_str := Some s |}.
(** A function wrapped by [@sa.orm.declared_attr] whose value has no
    [primary_key], as one that returns a table name. *)
Definition declared_attr : pyval :=
  {| truthy := true; is_declared_attr := true; primary_key := None;
     as_str := None |}.
(** [sa.Column(..., primary_key=pk)], read for its [primary_key] only. *)
Definition column (pk : bool) : pyval :=
  {| truthy := true; is_declared_attr := false; primary_key := Some pk;
     as_str := None |}.

(** A function wrapped by [@sa.orm.declared_attr] that returns
    [sa.Column(..., primary_key=pk)]. *)
Definition declared_column (pk : bool) : pyval :=
  {| truthy := true; is_declared_attr := true; primary_key := Some pk;
     as_str := None |}.

(** A class object without its linearisation: its identity (what [is]
    compares), [__name__], [__dict__], and whether its metaclass makes it an
    instance of [sa.orm.DeclarativeMeta]. *)
Record pytype := {
  ty_id : nat;
  ty_name : string;
  ty_dict : gmap string pyval;
  ty_declarative : bool;
}.

(** A class together with the part of [__mro__] after itself, most derived
    first.  Python always puts the class at the head of its own [__mro__]. *)
Record pyclass := {
  cls_self : pytype;
  cls_ancestors : list pytype;
}.

Definition mro (cls : pyclass) : list pytype := cls_self cls :: cls_ancestors cls.

(** [a is b] *)
Definition is_same (a b : pytype) : bool := Nat.eqb (ty_id a) (ty_id b).

(** [bool(d.get(k, False))] *)
Definition get_flag (d : gmap string pyval) (k : string) : bool :=
  match d !! k with
  | Some v => truthy v
  | None => false
  end.

(** [bool(getattr(x, "primary_key", False))], for the [x] that attribute
    access on the class yields for the entry [v]. *)
Definition getattr_primary_key (v : pyval) : bool :=
  match primary_key v with
  | Some b => b
  | None => false
  end.

(** Attribute lookup on a class: the first [__dict__] along the MRO that has
    the name supplies the attribute.  The entry found stands for the value
    the lookup yields: what the descriptor protocol makes of it is recorded in
    its [primary_key]. *)
Fixpoint mro_lookup (l : list pytype) (attr : string) : option pyval :=
  match l with
  | [] => None
  | b :: rest =>
      match ty_dict b !! attr with
      | Some v => Some v
      | None => mro_lookup rest attr
      end
  end.

Definition class_getattr (cls : pyclass) (attr : string) : option pyval :=
  mro_lookup (mro cls) attr.

End Py.

(** ** The naming mixin and the decision procedure *)

Import Py.

Module NameMixin.

(** The declared-attr hook; [None] is Python's [None]. *)
Definition __tablename__ (cls : pyclass) : option string :=
  match class_getattr cls "id" with
  | Some v =>
      if getattr_primary_key v
      then Some (camel_to_snake_case (ty_name (cls_self cls)))
      else None
  | None => None
  end.

End NameMixin.

(** The first [if] of [should_set_tablename]. *)
Definition screened_out (cls : pyclass) : bool :=
  get_flag (ty_dict (cls_self cls)) "__abstract__"
  || negb (existsb ty_declarative (cls_ancestors cls)).

(** The [for base in cls.__mro__] loop, from the remaining bases [l]. *)
Fixpoint walk (cls : pytype) (l : list pytype) : bool :=
  match l with
  | [] => true
  | base :: rest =>
      match ty_dict base !! "__tablename__" with
      | None => walk cls rest
      | Some v =>
          if is_declared_attr v then false
          else negb (is_same base cls
                     || get_flag (ty_dict base) "__abstract__"
                     || negb (ty_declarative base))
      end
  end.

Definition should_set_tablename (cls : pyclass) : bool :=
  if screened_out cls then false
  else walk (cls_self cls) (mro cls).

(** ** The representation formatter *)

Module Base.

(** A component of an identity tuple. *)
Inductive keyval :=
| KInt (n : Z)
| KStr (s : string).

(** [str(n)] for an [int]. *)
Definition str_int (n : Z) : string := NilZero.string_of_int (Z.to_int n).

(** [str(k)] *)
Definition str_key (k : keyval) : string :=
  match k with
  | KInt n => str_int n
  | KStr s => s
  end.

(** [sep.join(l)] *)
Fixpoint join (sep : string) (l : list string) : string :=
  match l with
  | [] => ""
  | [x] => x
  | x :: rest => x +:+ sep +:+ join sep rest
  end.

(** What [sa.inspect(self)] reports. *)
Inductive instance_state :=
| Transient
| Pending
| Persisted (key : list keyval).

Definition transient (st : instance_state) : bool :=
  match st with Transient => true | _ => false end.
Definition pending (st : instance_state) : bool :=
  match st with Pending => true | _ => false end.
Definition identity (st : instance_state) : list keyval :=
  match st with Persisted key => key | _ => [] end.

Record instance := {
  inst_type : pytype;         (* [type(self)] *)
  inst_handle : Z;            (* [id(self)] *)
  inst_state : instance_state;
}.

Definition __repr__ (self : instance) : string :=
  let state := inst_state self in
  let pk :=
    if transient state then "(transient " +:+ str_int (inst_handle self) +:+ ")"
    else if pending state then "(pending " +:+ str_int (inst_handle self) +:+ ")"
    else join ", " (map str_key (identity state)) in
  "<" +:+ ty_name (inst_type self) +:+ " " +:+ pk +:+ ">".

End Base.


(** * Properties *)

(** ** Predicates on strings used to state the properties *)

(** Every character of [s] satisfies [p]. *)
Fixpoint all_chars (p : ascii -> bool) (s : string) : bool :=
  match s with
  | EmptyString => true
  | String c rest => p c && all_chars p rest
  end.

(** [s.startswith("_")] *)
Definition startswith_underscore (s : string) : bool :=
  match s with
  | String c _ => Ascii.eqb c underscore
  | EmptyString => false
  end.

Definition not_upper (c : ascii) : bool := negb (isupper c).

(** A character of an already snake-cased name: [[a-z0-9_]]. *)
Definition is_snake_char (c : ascii) : bool :=
  is_az c || is_09 c || Ascii.eqb c underscore.

Definition snake_cased (s : string) : bool := all_chars is_snake_char s.

(** ** Vocabulary for the class properties *)

(** The class declares [__tablename__] in its own [__dict__]. *)
Definition declares_tablename (b : pytype) : Prop :=
  is_Some (ty_dict b !! "__tablename__").

(** The class is marked abstract in its own [__dict__]. *)
Definition marked_abstract (b : pytype) : bool :=
  get_flag (ty_dict b) "__abstract__".

(** Some ancestor, the class itself excluded, is a mapped type. *)
Definition has_mapped_ancestor (cls : pyclass) : bool :=
  existsb ty_declarative (cls_ancestors cls).

(** The class provides a primary-key [id] in its own [__dict__]. *)
Definition own_primary_key_id (cls : pyclass) : bool :=
  match ty_dict (cls_self cls) !! "id" with
  | Some v => getattr_primary_key v
  | None => false
  end.

(** [b] is the nearest class of the list [l] that has [attr] in its own
    [__dict__], and [v] is the value it stores there. *)
Definition nearest_provider (l : list pytype) (attr : string)
    (b : pytype) (v : pyval) : Prop :=
  exists pre rest,
    l = pre ++ b :: rest
    /\ Forall (fun a => ty_dict a !! attr = None) pre
    /\ ty_dict b !! attr = Some v.

(** ** Sample classes *)

Definition object_ty : pytype :=
  {| ty_id := 0; ty_name := "object"; ty_dict := ∅; ty_declarative := false |}.

(** A declarative base, as [db.Model] is. *)
Definition model_ty : pytype :=
  {| ty_id := 1; ty_name := "Model"; ty_dict := ∅; ty_declarative := true |}.

(** [class Parent(Model): __tablename__ = "parent"; id = Column(primary_key=True)] *)
Definition parent_ty : pytype :=
  {| ty_id := 2; ty_name := "Parent";
     ty_dict := <["__tablename__" := py_str "parent"]> {["id" := column true]};
     ty_declarative := true |}.

(** [class Child(Parent): pass] *)
Definition child_cls : pyclass :=
  {| cls_self := {| ty_id := 3; ty_name := "Child"; ty_dict := ∅;
                    ty_declarative := true |};
     cls_ancestors := [parent_ty; model_ty; object_ty] |}.

(** [class Person(Model): id = Column(primary_key=True)] *)
Definition person_ty : pytype :=
  {| ty_id := 10; ty_name := "Person"; ty_dict := {["id" := column true]};
     ty_declarative := true |}.

(** [class Employee(Person): pass], single-table inheritance: no column and
    no primary key of its own. *)
Definition employee_cls : pyclass :=
  {| cls_self := {| ty_id := 11; ty_name := "Employee"; ty_dict := ∅;
                    ty_declarative := true |};
     cls_ancestors := [person_ty; model_ty; object_ty] |}.

(** [class UserAccount(Model): id = Column(primary_key=True)] *)
Definition user_account_cls : pyclass :=
  {| cls_self := {| ty_id := 4; ty_name := "UserAccount";
                    ty_dict := {["id" := column true]};
                    ty_declarative := true |};
     cls_ancestors := [model_ty; object_ty] |}.

(** [class Audited(Model): __abstract__ = True] *)
Definition abstract_cls : pyclass :=
  {| cls_self := {| ty_id := 5; ty_name := "Audited";
                    ty_dict := {["__abstract__" := py_bool true]};
                    ty_declarative := true |};
     cls_ancestors := [model_ty; object_ty] |}.

(** [class Plain: pass] *)
Definition plain_cls : pyclass :=
  {| cls_self := {| ty_id := 6; ty_name := "Plain"; ty_dict := ∅;
                    ty_declarative := false |};
     cls_ancestors := [object_ty] |}.

(** [class Sharded(Parent)] with [__tablename__] wrapped by [declared_attr]. *)
Definition deferred_cls : pyclass :=
  {| cls_self := {| ty_id := 7; ty_name := "Sharded";
                    ty_dict := {["__tablename__" := declared_attr]};
                    ty_declarative := true |};
     cls_ancestors := [parent_ty; model_ty; object_ty] |}.

(** [class Event(Model): pass] *)
Definition bare_cls : pyclass :=
  {| cls_self := {| ty_id := 8; ty_name := "Event"; ty_dict := ∅;
                    ty_declarative := true |};
     cls_ancestors := [model_ty; object_ty] |}.

(** The table name a class states in its own [__dict__], if it states one. *)
Definition stated_tablename (b : pytype) : option string :=
  match ty_dict b !! "__tablename__" with
  | Some v => as_str v
  | None => None
  end.

(** [class Parent(Model): __tablename__ = "legacy_parent"], a second class of
    the same name in another module. *)
Definition legacy_parent_ty : pytype :=
  {| ty_id := 9; ty_name := "Parent";
     ty_dict := {["__tablename__" := py_str "legacy_parent"]};
     ty_declarative := true |}.

Definition parent_row : Base.instance :=
  {| Base.inst_type := parent_ty; Base.inst_handle := 140230;
     Base.inst_state := Base.Persisted [Base.KInt 7] |}.

Definition legacy_parent_row : Base.instance :=
  {| Base.inst_type := legacy_parent_ty; Base.inst_handle := 140230;
     Base.inst_state := Base.Persisted [Base.KInt 7] |}.

(** ** Further sample classes *)

(** The class object of [NameMixin] itself: a plain class whose [__dict__]
    holds the [__tablename__] hook, wrapped by [declared_attr]. *)
Definition name_mixin_ty : pytype :=
  {| ty_id := 12; ty_name := "NameMixin";
     ty_dict := <["__tablename__" := declared_attr]>
                  (<["__module__" := py_str "flask_sqlalchemy.base"]>
                     {["__doc__" := py_str "Mixin to add a snake-cased table name to models."]});
     ty_declarative := false |}.

(** [class Article(NameMixin, Model): id = Column(primary_key=True)] *)
Definition article_cls : pyclass :=
  {| cls_self := {| ty_id := 13; ty_name := "Article";
                    ty_dict := {["id" := column true]};
                    ty_declarative := true |};
     cls_ancestors := [name_mixin_ty; model_ty; object_ty] |}.

(** [class Special(Parent, NameMixin): pass]; the MRO is [Special], [Parent],
    [Model], [NameMixin], [object]. *)
Definition special_cls : pyclass :=
  {| cls_self := {| ty_id := 14; ty_name := "Special"; ty_dict := ∅;
                    ty_declarative := true |};
     cls_ancestors := [parent_ty; model_ty; name_mixin_ty; object_ty] |}.

(** [class Tag(Model): __tablename__ = "tags"] *)
Definition tag_cls : pyclass :=
  {| cls_self := {| ty_id := 15; ty_name := "Tag";
                    ty_dict := {["__tablename__" := py_str "tags"]};
                    ty_declarative := true |};
     cls_ancestors := [model_ty; object_ty] |}.

(** [class Stamped(Model): __abstract__ = True; id = Column(primary_key=True)] *)
Definition stamped_cls : pyclass :=
  {| cls_self := {| ty_id := 16; ty_name := "Stamped";
                    ty_dict := <["__abstract__" := py_bool true]>
                                 {["id" := column true]};
                    ty_declarative := true |};
     cls_ancestors := [model_ty; object_ty] |}.

(** [class Note(Person): id = Column()], an [id] that is no primary key. *)
Definition note_cls : pyclass :=
  {| cls_self := {| ty_id := 17; ty_name := "Note";
                    ty_dict := {["id" := column false]};
                    ty_declarative := true |};
     cls_ancestors := [person_ty; model_ty; object_ty] |}.

Definition new_article : Base.instance :=
  {| Base.inst_type := cls_self article_cls; Base.inst_handle := 4302;
     Base.inst_state := Base.Transient |}.

Definition other_new_article : Base.instance :=
  {| Base.inst_type := cls_self article_cls; Base.inst_handle := 4302;
     Base.inst_state := Base.Pending |}.

Definition stored_article : Base.instance :=
  {| Base.inst_type := cls_self article_cls; Base.inst_handle := 4302;
     Base.inst_state := Base.Persisted [Base.KInt 3] |}.

Definition stored_article_again : Base.instance :=
  {| Base.inst_type := cls_self article_cls; Base.inst_handle := 9914;
     Base.inst_state := Base.Persisted [Base.KInt 3] |}.

Definition second_new_article : Base.instance :=
  {| Base.inst_type := cls_self article_cls; Base.inst_handle := 9914;
     Base.inst_state := Base.Transient |}.

(** ** The converter beyond code point 255 *)

(** The same three passes over a wider alphabet, to see what becomes of an
    upper-case character that has no lower-case form. *)
Module Wide.

(** A code point: one below 256, or U+2102 (DOUBLE-STRUCK CAPITAL C).
    [str.isupper] counts U+2102 as upper case, [str.lower] leaves it as it
    is, and it lies in none of [[A-Z]], [[a-z]], [[a-z0-9]]. *)
Inductive uchar :=
| Low (c : ascii)
| DoubleStruckC.


Definition is_AZ (u : uchar) : bool :=
  match u with Low c => Chars.is_AZ c | DoubleStruckC => false end.
Definition is_az (u : uchar) : bool :=
  match u with Low c => Chars.is_az c | DoubleStruckC => false end.
Definition is_az09 (u : uchar) : bool :=
  match u with Low c => Chars.is_az09 c | DoubleStruckC => false end.
Definition is_underscore (u : uchar) : bool :=
  match u with Low c => Ascii.eqb c Chars.underscore | DoubleStruckC => false end.

(** [str.isupper] on one character. *)
Definition isupper (u : uchar) : bool :=
  match u with Low c => Chars.isupper c | DoubleStruckC => true end.

(** [str.lower] on one character. *)
Definition lower_char (u : uchar) : uchar :=
  match u with Low c => Low (Chars.lower_char c) | DoubleStruckC => DoubleStruckC end.

Definition lookbehind_az09 (prev : option uchar) : bool :=
  match prev with
  | Some p => is_az09 p
  | None => false
  end.

Definition not_at_start (prev : option uchar) : bool :=
  match prev with
  | Some _ => true
  | None => false
  end.

Definition lookahead_az (rest : list uchar) : bool :=
  match rest with
  | d :: _ => is_az d
  | [] => false
  end.

(** [((?<=[a-z0-9])[A-Z]|(?!^)[A-Z](?=[a-z]))] at the character [c]. *)
Definition matches (prev : option uchar) (c : uchar) (rest : list uchar) : bool :=
  (lookbehind_az09 prev && is_AZ c)
  || (not_at_start prev && is_AZ c && lookahead_az rest).

(** [re.sub(pattern, r"_\1", name)] from a position after [prev]. *)
Fixpoint sub_from (prev : option uchar) (name : list uchar) : list uchar :=
  match name with
  | [] => []
  | c :: rest =>
      if matches prev c rest
      then Low Chars.underscore :: c :: sub_from (Some c) rest
      else c :: sub_from (Some c) rest
  end.

Definition re_sub (name : list uchar) : list uchar := sub_from None name.

(** [str.lower] *)
Definition lower (s : list uchar) : list uchar := map lower_char s.

(** [str.lstrip("_")] *)
Fixpoint lstrip_underscore (s : list uchar) : list uchar :=
  match s with
  | [] => []
  | c :: rest => if is_underscore c then lstrip_underscore rest else s
  end.

Definition camel_to_snake_case (name : list uchar) : list uchar :=
  let name := re_sub name in
  lstrip_underscore (lower name).

(** [s.startswith("_")] *)
Definition startswith_underscore (s : list uchar) : bool :=
  match s with
  | c :: _ => is_underscore c
  | [] => false
  end.

(** A string of code points below 256, in the wider alphabet. *)
Fixpoint of_string (s : string) : list uchar :=
  match s with
  | EmptyString => []
  | String c rest => Low c :: of_string rest
  end.

End Wide.

(** [class IdMixin] with [id] a declared attr whose function returns
    [Column(primary_key=True)]. *)
Definition id_mixin_ty : pytype :=
  {| ty_id := 18; ty_name := "IdMixin";
     ty_dict := {["id" := declared_column true]};
     ty_declarative := false |}.

(** [class Thing(IdMixin, Model): pass] *)
Definition thing_cls : pyclass :=
  {| cls_self := {| ty_id := 19; ty_name := "Thing"; ty_dict := ∅;
                    ty_declarative := true |};
     cls_ancestors := [id_mixin_ty; model_ty; object_ty] |}.

(** ** Vocabulary for the further converter properties *)

Definition is_underscore (c : ascii) : bool := Ascii.eqb c underscore.

(** [s.replace("_", "")] *)
Fixpoint drop_underscores (s : string) : string :=
  match s with
  | EmptyString => EmptyString
  | String c rest =>
      if is_underscore c then drop_underscores rest
      else String c (drop_underscores rest)
  end.

(** ** Facts about single characters *)

Ltac each_char c := destruct c as [[] [] [] [] [] [] [] []]; vm_compute; try reflexivity.

Lemma lower_char_not_upper c : isupper (lower_char c) = false.
Proof. each_char c. Qed.

Lemma lower_char_fixed c : isupper c = false -> lower_char c = c.
Proof. unfold lower_char. intros ->. reflexivity. Qed.

Lemma AZ_isupper c : is_AZ c = true -> isupper c = true.
Proof. unfold isupper. intros ->. reflexivity. Qed.

Lemma not_upper_not_AZ c : not_upper c = true -> is_AZ c = false.
Proof.
  unfold not_upper. destruct (is_AZ c) eqn:E; [|reflexivity].
  rewrite (AZ_isupper c E). discriminate.
Qed.

Lemma snake_char_not_upper c : is_snake_char c = true -> not_upper c = true.
Proof. each_char c; intros H; discriminate H. Qed.

Lemma lower_char_underscore c :
  Ascii.eqb (lower_char c) underscore = Ascii.eqb c underscore.
Proof. each_char c. Qed.

(** ** Facts about the three passes *)

Lemma all_chars_impl (p q : ascii -> bool) s :
  (forall c, p c = true -> q c = true) ->
  all_chars p s = true -> all_chars q s = true.
Proof.
  intros Hpq. induction s as [|c s IH]; simpl; [reflexivity|].
  intros [Hc Hs]%andb_true_iff. rewrite (Hpq c Hc), (IH Hs). reflexivity.
Qed.

Lemma matches_needs_AZ prev c rest : is_AZ c = false -> matches prev c rest = false.
Proof.
  intros H. unfold matches. rewrite H.
  rewrite !andb_false_r. reflexivity.
Qed.

(** Substitution leaves a string without [[A-Z]] as it is. *)
Lemma sub_from_no_AZ prev s :
  all_chars not_upper s = true -> sub_from prev s = s.
Proof.
  revert prev. induction s as [|c s IH]; intros prev; simpl; [reflexivity|].
  intros [Hc Hs]%andb_true_iff.
  rewrite (matches_needs_AZ prev c s (not_upper_not_AZ c Hc)).
  rewrite (IH (Some c) Hs). reflexivity.
Qed.

Lemma lower_all_not_upper s : all_chars not_upper (lower s) = true.
Proof.
  induction s as [|c s IH]; simpl; [reflexivity|].
  unfold not_upper at 1. rewrite lower_char_not_upper, IH. reflexivity.
Qed.

Lemma lower_fixed s : all_chars not_upper s = true -> lower s = s.
Proof.
  induction s as [|c s IH]; simpl; [reflexivity|].
  intros [Hc Hs]%andb_true_iff.
  rewrite (IH Hs), lower_char_fixed; [reflexivity|].
  unfold not_upper in Hc. destruct (isupper c); [discriminate|reflexivity].
Qed.

Lemma lstrip_keeps (p : ascii -> bool) s :
  all_chars p s = true -> all_chars p (lstrip_underscore s) = true.
Proof.
  induction s as [|c s IH]; simpl; [reflexivity|].
  intros H. destruct (Ascii.eqb c underscore).
  - apply IH. apply andb_true_iff in H. apply H.
  - exact H.
Qed.

Lemma lstrip_no_leading s : startswith_underscore (lstrip_underscore s) = false.
Proof.
  induction s as [|c s IH]; simpl; [reflexivity|].
  destruct (Ascii.eqb c underscore) eqn:E; [exact IH|].
  simpl. exact E.
Qed.

Lemma lstrip_fixed s : startswith_underscore s = false -> lstrip_underscore s = s.
Proof. destruct s as [|c s]; simpl; [reflexivity|]. intros ->. reflexivity. Qed.

Lemma lstrip_idem s : lstrip_underscore (lstrip_underscore s) = lstrip_underscore s.
Proof. apply lstrip_fixed, lstrip_no_leading. Qed.

Lemma snake_case_not_upper s : all_chars not_upper (camel_to_snake_case s) = true.
Proof. unfold camel_to_snake_case. apply lstrip_keeps, lower_all_not_upper. Qed.

Lemma snake_case_no_leading s : startswith_underscore (camel_to_snake_case s) = false.
Proof. unfold camel_to_snake_case. apply lstrip_no_leading. Qed.

(** The converter leaves its own outputs unchanged. *)
Lemma snake_case_fixed s :
  all_chars not_upper s = true -> startswith_underscore s = false ->
  camel_to_snake_case s = s.
Proof.
  intros Hu Hl. unfold camel_to_snake_case, re_sub.
  rewrite (sub_from_no_AZ None s Hu), (lower_fixed s Hu).
  apply lstrip_fixed, Hl.
Qed.

(** Hence converting twice is converting once, on every string. *)
Lemma snake_case_idempotent s :
  camel_to_snake_case (camel_to_snake_case s) = camel_to_snake_case s.
Proof. apply snake_case_fixed; [apply snake_case_not_upper|apply snake_case_no_leading]. Qed.

(** On a name without capitals the converter only strips the leading
    underscores. *)
Lemma snake_case_of_snake s :
  snake_cased s = true -> camel_to_snake_case s = lstrip_underscore s.
Proof.
  intros H. assert (Hu : all_chars not_upper s = true).
  { revert H. apply all_chars_impl, snake_char_not_upper. }
  unfold camel_to_snake_case, re_sub.
  rewrite (sub_from_no_AZ None s Hu), (lower_fixed s Hu). reflexivity.
Qed.

(** ** The case converter *)

(** C6: the converter maps ["User"] to ["user"], ["UserAccount"] to
    ["user_account"], ["HTTPServer"] to ["http_server"] and ["ABTest2Variant"]
    to ["ab_test2_variant"]. *)
Theorem camel_to_snake_case_examples :
  camel_to_snake_case "User" = "user"
  /\ camel_to_snake_case "UserAccount" = "user_account"
  /\ camel_to_snake_case "HTTPServer" = "http_server"
  /\ camel_to_snake_case "ABTest2Variant" = "ab_test2_variant".
Proof. repeat split; vm_compute; reflexivity. Qed.

(** C7: on every already snake-cased string (lower-case letters, digits and
    underscores only) converting twice gives the same result as converting
    once. *)
Theorem camel_to_snake_case_idempotent_on_snake (s : string) :
  snake_cased s = true ->
  camel_to_snake_case (camel_to_snake_case s) = camel_to_snake_case s.
Proof.
  intros H. rewrite (snake_case_of_snake s H).
  rewrite snake_case_of_snake.
  - apply lstrip_idem.
  - apply lstrip_keeps, H.
Qed.

Lemma camel_to_snake_case_idempotent_on_snake_witness :
  snake_cased "__user_account2" = true
  /\ camel_to_snake_case (camel_to_snake_case "__user_account2")
     = camel_to_snake_case "__user_account2".
Proof.
  split; [reflexivity|].
  apply (camel_to_snake_case_idempotent_on_snake "__user_account2").
  reflexivity.
Defined.

(** On the strings of code points below 256 the converter is defined
    everywhere, the empty string included (which it maps to the empty
    string); its result holds no upper-case character and does not begin with
    an underscore. *)
Lemma camel_to_snake_case_total (s : string) :
  camel_to_snake_case "" = ""
  /\ exists out : string,
       camel_to_snake_case s = out
       /\ all_chars not_upper out = true
       /\ all_chars (fun c => negb (is_AZ c)) out = true
       /\ startswith_underscore out = false.
Proof.
  split; [reflexivity|].
  exists (camel_to_snake_case s). split; [reflexivity|].
  split; [apply snake_case_not_upper|].
  split; [|apply snake_case_no_leading].
  generalize (snake_case_not_upper s). apply all_chars_impl.
  intros c Hc. rewrite (not_upper_not_AZ c Hc). reflexivity.
Qed.

(** ** Walking the MRO *)

Lemma mro_lookup_skip pre l attr :
  Forall (fun a => ty_dict a !! attr = None) pre ->
  mro_lookup (pre ++ l) attr = mro_lookup l attr.
Proof.
  induction 1 as [|a pre Ha _ IH]; simpl; [reflexivity|].
  rewrite Ha. exact IH.
Qed.

Lemma mro_lookup_nearest l attr v :
  mro_lookup l attr = Some v <-> exists b, nearest_provider l attr b v.
Proof.
  split.
  - induction l as [|a l IH]; simpl; [discriminate|].
    destruct (ty_dict a !! attr) as [w|] eqn:E.
    + intros [= ->]. exists a, [], l. repeat split; [constructor|exact E].
    + intros H. destruct (IH H) as (b & pre & rest & -> & Hpre & Hb).
      exists b, (a :: pre), rest. repeat split; [constructor; assumption|exact Hb].
  - intros (b & pre & rest & -> & Hpre & Hb).
    rewrite (mro_lookup_skip pre (b :: rest) attr Hpre). simpl.
    rewrite Hb. reflexivity.
Qed.

Lemma mro_lookup_absent l attr :
  Forall (fun a => ty_dict a !! attr = None) l -> mro_lookup l attr = None.
Proof.
  intros H. rewrite <- (app_nil_r l).
  rewrite (mro_lookup_skip l [] attr H). reflexivity.
Qed.

Lemma walk_skip cls pre l :
  Forall (fun a => ~ declares_tablename a) pre ->
  walk cls (pre ++ l) = walk cls l.
Proof.
  induction 1 as [|a pre Ha _ IH]; simpl; [reflexivity|].
  destruct (ty_dict a !! "__tablename__") as [w|] eqn:E; [|exact IH].
  exfalso. apply Ha. unfold declares_tablename. rewrite E. eauto.
Qed.

Lemma walk_at_declaration cls base rest v :
  ty_dict base !! "__tablename__" = Some v ->
  walk cls (base :: rest) =
    if is_declared_attr v then false
    else negb (is_same base cls || marked_abstract base || negb (ty_declarative base)).
Proof. intros H. simpl. rewrite H. reflexivity. Qed.

Lemma is_same_false a b : is_same a b = false <-> ty_id a <> ty_id b.
Proof. unfold is_same. apply Nat.eqb_neq. Qed.

(** ** The table-name hook *)

(** What the hook computes: it returns the snake-cased class name exactly when
    the nearest class of the MRO (the class first, then its ancestors) that
    provides [id] provides one with a true [primary_key], and [None]
    otherwise.  An own primary-key [id] always suffices, and a class named
    [UserAccount] with its own primary-key [id] gets ["user_account"]. *)
Lemma tablename_follows_attribute_lookup (cls : pyclass) :
  (forall name : string,
      NameMixin.__tablename__ cls = Some name <->
      name = camel_to_snake_case (ty_name (cls_self cls))
      /\ exists b v, nearest_provider (mro cls) "id" b v
                     /\ getattr_primary_key v = true)
  /\ (NameMixin.__tablename__ cls = None <->
      ~ exists b v, nearest_provider (mro cls) "id" b v
                    /\ getattr_primary_key v = true)
  /\ (own_primary_key_id cls = true ->
      NameMixin.__tablename__ cls
      = Some (camel_to_snake_case (ty_name (cls_self cls))))
  /\ (ty_name (cls_self cls) = "UserAccount" ->
      own_primary_key_id cls = true ->
      NameMixin.__tablename__ cls = Some "user_account").
Proof.
  assert (Hown : own_primary_key_id cls = true ->
                 NameMixin.__tablename__ cls
                 = Some (camel_to_snake_case (ty_name (cls_self cls)))).
  { unfold own_primary_key_id, NameMixin.__tablename__, class_getattr, mro.
    simpl. destruct (ty_dict (cls_self cls) !! "id") as [v|]; [|discriminate].
    intros ->. reflexivity. }
  assert (Huniq : forall b v b' v',
             nearest_provider (mro cls) "id" b v ->
             nearest_provider (mro cls) "id" b' v' -> v = v').
  { intros b v b' v' H H'.
    assert (E : mro_lookup (mro cls) "id" = Some v)
      by (apply mro_lookup_nearest; eauto).
    assert (E' : mro_lookup (mro cls) "id" = Some v')
      by (apply mro_lookup_nearest; eauto).
    congruence. }
  split; [|split; [|split]].
  - intros name. unfold NameMixin.__tablename__, class_getattr. split.
    + destruct (mro_lookup (mro cls) "id") as [v|] eqn:E; [|discriminate].
      destruct (getattr_primary_key v) eqn:Hpk; [|discriminate].
      intros [= <-]. split; [reflexivity|].
      apply mro_lookup_nearest in E as [b Hb]. eauto.
    + intros [-> (b & v & Hb & Hpk)].
      assert (E : mro_lookup (mro cls) "id" = Some v)
        by (apply mro_lookup_nearest; eauto).
      rewrite E, Hpk. reflexivity.
  - unfold NameMixin.__tablename__, class_getattr. split.
    + destruct (mro_lookup (mro cls) "id") as [v|] eqn:E.
      * destruct (getattr_primary_key v) eqn:Hpk; [discriminate|].
        intros _ (b & v' & Hb & Hpk').
        apply mro_lookup_nearest in E as [b0 Hb0].
        rewrite (Huniq _ _ _ _ Hb0 Hb) in Hpk. congruence.
      * intros _ (b & v' & Hb & _).
        assert (E' : mro_lookup (mro cls) "id" = Some v')
          by (apply mro_lookup_nearest; eauto).
        congruence.
    + intros Hno.
      destruct (mro_lookup (mro cls) "id") as [v|] eqn:E; [|reflexivity].
      destruct (getattr_primary_key v) eqn:Hpk; [|reflexivity].
      exfalso. apply Hno. apply mro_lookup_nearest in E as [b Hb]. eauto.
  - exact Hown.
  - intros Hname Hpk. rewrite (Hown Hpk), Hname. reflexivity.
Qed.

(** C1: the hook is to return a name only when the class itself, not an
    ancestor, provides a primary-key [id], and [None] otherwise.  The code
    looks [id] up with [hasattr] and so follows the MRO: [Employee], which
    inherits the primary key of [Person] and provides none of its own, gets
    ["employee"] where [None] is called for.  [UserAccount], with its own
    primary-key [id], gets ["user_account"] as stated. *)
Theorem tablename_inherited_id :
  own_primary_key_id employee_cls = false
  /\ Forall (fun a => ~ declares_tablename a) (mro employee_cls)
  /\ NameMixin.__tablename__ employee_cls = Some "employee"
  /\ own_primary_key_id user_account_cls = true
  /\ NameMixin.__tablename__ user_account_cls = Some "user_account".
Proof.
  split; [reflexivity|]. split; [|repeat split; reflexivity].
  repeat constructor; unfold declares_tablename; vm_compute;
    intros [x Hx]; discriminate Hx.
Qed.

(** ** The decision procedure *)

Lemma should_set_screened cls :
  screened_out cls = true -> should_set_tablename cls = false.
Proof. unfold should_set_tablename. intros ->. reflexivity. Qed.

Lemma should_set_walk cls :
  screened_out cls = false ->
  should_set_tablename cls = walk (cls_self cls) (mro cls).
Proof. unfold should_set_tablename. intros ->. reflexivity. Qed.

Lemma screened_out_false cls :
  screened_out cls = false <->
  marked_abstract (cls_self cls) = false /\ has_mapped_ancestor cls = true.
Proof.
  unfold screened_out, marked_abstract, has_mapped_ancestor.
  rewrite orb_false_iff, negb_false_iff. reflexivity.
Qed.

(** C2: for a class that passes the initial screen, when the first class of
    its MRO (itself included) that declares [__tablename__] in its own
    dictionary declares a value that is not a declared attr, the procedure
    returns true exactly when that class is not the candidate, is not marked
    abstract and is a mapped type; nothing after that class is consulted. *)
Theorem should_set_tablename_first_concrete
    (cls : pyclass) (pre rest : list pytype) (base : pytype) (v : pyval) :
  marked_abstract (cls_self cls) = false ->
  has_mapped_ancestor cls = true ->
  mro cls = pre ++ base :: rest ->
  Forall (fun a => ~ declares_tablename a) pre ->
  ty_dict base !! "__tablename__" = Some v ->
  is_declared_attr v = false ->
  (should_set_tablename cls = true <->
   ty_id base <> ty_id (cls_self cls)
   /\ marked_abstract base = false
   /\ ty_declarative base = true)
  /\ (forall rest' : list pytype,
        walk (cls_self cls) (pre ++ base :: rest')
        = walk (cls_self cls) (pre ++ base :: rest)).
Proof.
  intros Habs Hmapped Hmro Hpre Hdecl Hconcrete.
  assert (Hwalk : forall l, walk (cls_self cls) (pre ++ base :: l)
                   = negb (is_same base (cls_self cls) || marked_abstract base
                           || negb (ty_declarative base))).
  { intros l. rewrite (walk_skip _ pre _ Hpre).
    rewrite (walk_at_declaration _ _ _ v Hdecl), Hconcrete. reflexivity. }
  split.
  - rewrite should_set_walk by (apply screened_out_false; auto).
    rewrite Hmro, Hwalk, negb_true_iff, !orb_false_iff, negb_false_iff.
    rewrite is_same_false. tauto.
  - intros rest'. rewrite !Hwalk. reflexivity.
Qed.

Lemma should_set_tablename_first_concrete_witness :
  mro child_cls = [cls_self child_cls] ++ parent_ty :: [model_ty; object_ty]
  /\ ty_dict parent_ty !! "__tablename__" = Some (py_str "parent")
  /\ should_set_tablename child_cls = true.
Proof.
  split; [reflexivity|]. split; [reflexivity|].
  destruct (should_set_tablename_first_concrete child_cls
              [cls_self child_cls] [model_ty; object_ty] parent_ty
              (py_str "parent")) as [H _].
  - reflexivity.
  - reflexivity.
  - reflexivity.
  - constructor; [|constructor].
    unfold declares_tablename. vm_compute. intros [x Hx]. discriminate Hx.
  - reflexivity.
  - reflexivity.
  - apply H. split; [|split]; [|reflexivity|reflexivity].
    vm_compute. intros Hid. discriminate Hid.
Defined.

(** C3: a class marked abstract, and a class none of whose ancestors (itself
    excluded) is a mapped type, both get false. *)
Theorem should_set_tablename_screen (cls : pyclass) :
  marked_abstract (cls_self cls) = true \/ has_mapped_ancestor cls = false ->
  should_set_tablename cls = false.
Proof.
  intros H. apply should_set_screened. unfold screened_out.
  fold (marked_abstract (cls_self cls)). fold (has_mapped_ancestor cls).
  destruct H as [-> | ->]; [reflexivity|apply orb_true_r].
Qed.

Lemma should_set_tablename_screen_witness :
  (marked_abstract (cls_self abstract_cls) = true
   /\ should_set_tablename abstract_cls = false)
  /\ (has_mapped_ancestor plain_cls = false
      /\ should_set_tablename plain_cls = false).
Proof.
  split; (split; [reflexivity|]).
  - apply (should_set_tablename_screen abstract_cls). left. reflexivity.
  - apply (should_set_tablename_screen plain_cls). right. reflexivity.
Defined.

(** C4: a class whose own dictionary holds a declared-attr [__tablename__]
    gets false, whatever its ancestors are or declare. *)
Theorem should_set_tablename_deferred (cls : pyclass) (v : pyval) :
  ty_dict (cls_self cls) !! "__tablename__" = Some v ->
  is_declared_attr v = true ->
  should_set_tablename cls = false.
Proof.
  intros Hdecl Hdeferred. unfold should_set_tablename.
  destruct (screened_out cls); [reflexivity|].
  unfold mro. rewrite (walk_at_declaration _ _ _ v Hdecl), Hdeferred.
  reflexivity.
Qed.

Lemma should_set_tablename_deferred_witness :
  should_set_tablename deferred_cls = false.
Proof.
  apply (should_set_tablename_deferred deferred_cls declared_attr);
    reflexivity.
Defined.

(** C5: a class that is not marked abstract, has a mapped ancestor, and in
    whose whole MRO (itself included) no class declares [__tablename__] in its
    own dictionary, gets true. *)
Theorem should_set_tablename_default (cls : pyclass) :
  marked_abstract (cls_self cls) = false ->
  has_mapped_ancestor cls = true ->
  Forall (fun a => ~ declares_tablename a) (mro cls) ->
  should_set_tablename cls = true.
Proof.
  intros Habs Hmapped Hnone.
  rewrite should_set_walk by (apply screened_out_false; auto).
  rewrite <- (app_nil_r (mro cls)).
  rewrite (walk_skip _ _ [] Hnone). reflexivity.
Qed.

Lemma should_set_tablename_default_witness :
  should_set_tablename bare_cls = true.
Proof.
  apply (should_set_tablename_default bare_cls).
  - reflexivity.
  - reflexivity.
  - repeat constructor; unfold declares_tablename; vm_compute;
      intros [x Hx]; discriminate Hx.
Defined.

(** ** The representation formatter *)

Lemma append_assoc (a b c : string) : (a +:+ b) +:+ c = a +:+ (b +:+ c).
Proof.
  induction a as [|x a IH]; [reflexivity|].
  change (String x ((a +:+ b) +:+ c) = String x (a +:+ b +:+ c)).
  rewrite IH. reflexivity.
Qed.

Lemma repr_unfold (self : Base.instance) :
  Base.__repr__ self =
  "<" +:+ ty_name (Base.inst_type self) +:+ " " +:+
  (if Base.transient (Base.inst_state self)
   then "(transient " +:+ Base.str_int (Base.inst_handle self) +:+ ")"
   else if Base.pending (Base.inst_state self)
        then "(pending " +:+ Base.str_int (Base.inst_handle self) +:+ ")"
        else Base.join ", " (map Base.str_key (Base.identity (Base.inst_state self))))
  +:+ ">".
Proof. reflexivity. Qed.

(** C8: a transient instance renders as ["<" + name + " (transient " + handle
    + ")>"], a pending one as ["<" + name + " (pending " + handle + ")>"], and
    a persisted one as ["<" + name + " " + pk + ">"] where [pk] joins the string
    forms of the identity tuple's components, in order, with [", "]; a
    persisted instance of class [Name] with key [(1, "a")] renders as
    ["<Name 1, a>"]. *)
Theorem repr_by_status (ty : pytype) (handle : Z) :
  Base.__repr__ {| Base.inst_type := ty; Base.inst_handle := handle;
                   Base.inst_state := Base.Transient |}
  = "<" +:+ ty_name ty +:+ " (transient " +:+ Base.str_int handle +:+ ")>"
  /\ Base.__repr__ {| Base.inst_type := ty; Base.inst_handle := handle;
                      Base.inst_state := Base.Pending |}
     = "<" +:+ ty_name ty +:+ " (pending " +:+ Base.str_int handle +:+ ")>"
  /\ (forall key : list Base.keyval,
        Base.__repr__ {| Base.inst_type := ty; Base.inst_handle := handle;
                         Base.inst_state := Base.Persisted key |}
        = "<" +:+ ty_name ty +:+ " "
              +:+ Base.join ", " (map Base.str_key key) +:+ ">")
  /\ (forall (i : nat) (d : gmap string pyval) (m : bool),
        Base.__repr__
          {| Base.inst_type := {| ty_id := i; ty_name := "Name"; ty_dict := d;
                                  ty_declarative := m |};
             Base.inst_handle := handle;
             Base.inst_state := Base.Persisted [Base.KInt 1; Base.KStr "a"] |}
        = "<Name 1, a>").
Proof.
  repeat split.
  - rewrite repr_unfold. simpl. rewrite !append_assoc. reflexivity.
  - rewrite repr_unfold. simpl. rewrite !append_assoc. reflexivity.
Qed.

(** C9: two instances with the same class name, the same persistence status
    (and identity tuple, when persisted) and the same handle have the same
    representation, whatever table names their classes have. *)
Theorem repr_ignores_tablename (a b : Base.instance) :
  ty_name (Base.inst_type a) = ty_name (Base.inst_type b) ->
  Base.inst_state a = Base.inst_state b ->
  Base.inst_handle a = Base.inst_handle b ->
  Base.__repr__ a = Base.__repr__ b.
Proof.
  intros Hname Hstate Hhandle.
  rewrite !repr_unfold, Hname, Hstate, Hhandle. reflexivity.
Qed.

Lemma repr_ignores_tablename_witness :
  stated_tablename (Base.inst_type parent_row) = Some "parent"
  /\ stated_tablename (Base.inst_type legacy_parent_row) = Some "legacy_parent"
  /\ NameMixin.__tablename__ {| cls_self := parent_ty;
                                cls_ancestors := [model_ty; object_ty] |}
     <> NameMixin.__tablename__ {| cls_self := legacy_parent_ty;
                                   cls_ancestors := [model_ty; object_ty] |}
  /\ Base.__repr__ parent_row = Base.__repr__ legacy_parent_row.
Proof.
  split; [reflexivity|]. split; [reflexivity|]. split; [discriminate|].
  apply (repr_ignores_tablename parent_row legacy_parent_row); reflexivity.
Defined.

(** * Further properties *)

(** ** The case converter: shape of the result *)

Lemma append_cons (c : ascii) (a b : string) :
  String c a +:+ b = String c (a +:+ b).
Proof. reflexivity. Qed.

Lemma re_sub_cons c rest : re_sub (String c rest) = String c (sub_from (Some c) rest).
Proof. reflexivity. Qed.

Lemma length_sub_from_le p s :
  String.length (sub_from p s) <= 2 * String.length s.
Proof.
  revert p. induction s as [|c s IH]; intros p; simpl; [lia|].
  specialize (IH (Some c)). destruct (matches p c s); simpl; lia.
Qed.

Lemma length_sub_from_ge p s :
  String.length s <= String.length (sub_from p s).
Proof.
  revert p. induction s as [|c s IH]; intros p; simpl; [lia|].
  specialize (IH (Some c)). destruct (matches p c s); simpl; lia.
Qed.

Lemma length_lower s : String.length (lower s) = String.length s.
Proof. induction s as [|c s IH]; simpl; [reflexivity|]. rewrite IH. reflexivity. Qed.

Lemma length_lstrip_le s :
  String.length (lstrip_underscore s) <= String.length s.
Proof.
  induction s as [|c s IH]; simpl; [lia|].
  destruct (Ascii.eqb c underscore); simpl; lia.
Qed.

(** X1: converting twice is converting once, on every string and not only on
    the snake-cased ones. *)
Theorem camel_to_snake_case_twice (s : string) :
  camel_to_snake_case (camel_to_snake_case s) = camel_to_snake_case s.
Proof.
  apply snake_case_fixed; [apply snake_case_not_upper|apply snake_case_no_leading].
Qed.

(** X2: the strings the converter returns unchanged are exactly those that
    [str.lower] returns unchanged and that do not begin with an underscore. *)
Theorem camel_to_snake_case_fixed_points (s : string) :
  camel_to_snake_case s = s <->
  lower s = s /\ startswith_underscore s = false.
Proof.
  split.
  - intros E. split.
    + apply lower_fixed. rewrite <- E. apply snake_case_not_upper.
    + rewrite <- E. apply snake_case_no_leading.
  - intros [Hu Hl]. apply snake_case_fixed; [|exact Hl].
    rewrite <- Hu. apply lower_all_not_upper.
Qed.

Lemma snake_case_underscore_cons s :
  camel_to_snake_case (String underscore s) = camel_to_snake_case s.
Proof.
  destruct s as [|c r]; [reflexivity|].
  unfold camel_to_snake_case. rewrite !re_sub_cons.
  cbn [sub_from]. destruct (matches (Some underscore) c r); reflexivity.
Qed.

(** X3: leading underscores of the name do not count: a name and the name
    without them convert to the same result, so [_User] and [User] get one
    table name. *)
Theorem camel_to_snake_case_leading_underscores (s : string) :
  camel_to_snake_case (lstrip_underscore s) = camel_to_snake_case s.
Proof.
  induction s as [|c s IH]; [reflexivity|].
  cbn [lstrip_underscore]. destruct (Ascii.eqb c underscore) eqn:E; [|reflexivity].
  apply Ascii.eqb_eq in E. subst c.
  rewrite snake_case_underscore_cons. exact IH.
Qed.

(** X4: for a name of code points below 256 that is not empty, the result is
    shorter than twice the name, no underscore being put before the first
    character; and the result is at least as long as a name that does not
    begin with an underscore. *)
Theorem camel_to_snake_case_length (s : string) :
  (s <> EmptyString ->
   String.length (camel_to_snake_case s) + 1 <= 2 * String.length s)
  /\ (startswith_underscore s = false ->
      String.length s <= String.length (camel_to_snake_case s)).
Proof.
  unfold camel_to_snake_case. destruct s as [|c r].
  { split; [intros H; destruct (H eq_refl)|intros _; simpl; lia]. }
  rewrite re_sub_cons. split.
  - intros _.
    pose proof (length_lstrip_le (lower (String c (sub_from (Some c) r)))) as Hl.
    rewrite length_lower in Hl. simpl in Hl. simpl.
    pose proof (length_sub_from_le (Some c) r). lia.
  - cbn [startswith_underscore]. intros E.
    cbn [lower lstrip_underscore]. rewrite lower_char_underscore, E.
    simpl. rewrite length_lower.
    pose proof (length_sub_from_ge (Some c) r). lia.
Qed.

Lemma camel_to_snake_case_length_witness :
  ("aB" <> EmptyString
   /\ String.length (camel_to_snake_case "aB") + 1 <= 2 * String.length "aB")
  /\ (startswith_underscore "aB" = false
      /\ String.length "aB" <= String.length (camel_to_snake_case "aB")).
Proof.
  split; (split; [try discriminate; try reflexivity|]).
  - apply (camel_to_snake_case_length "aB"). discriminate.
  - apply (camel_to_snake_case_length "aB"). reflexivity.
Defined.

Lemma drop_sub_from p s : drop_underscores (sub_from p s) = drop_underscores s.
Proof.
  revert p. induction s as [|c s IH]; intros p; [reflexivity|].
  cbn [sub_from]. destruct (matches p c s).
  - change (drop_underscores (String underscore (String c (sub_from (Some c) s))))
      with (drop_underscores (String c (sub_from (Some c) s))).
    cbn [drop_underscores]. rewrite IH. reflexivity.
  - cbn [drop_underscores]. rewrite IH. reflexivity.
Qed.

Lemma drop_lower s : drop_underscores (lower s) = lower (drop_underscores s).
Proof.
  induction s as [|c s IH]; [reflexivity|].
  cbn [lower drop_underscores]. unfold is_underscore.
  rewrite lower_char_underscore.
  destruct (Ascii.eqb c underscore); cbn [lower]; rewrite IH; reflexivity.
Qed.

Lemma drop_lstrip s : drop_underscores (lstrip_underscore s) = drop_underscores s.
Proof.
  induction s as [|c s IH]; [reflexivity|].
  cbn [lstrip_underscore]. destruct (Ascii.eqb c underscore) eqn:E; [|reflexivity].
  cbn [drop_underscores]. unfold is_underscore. rewrite E. exact IH.
Qed.

(** X5: on a name of code points below 256 the converter only lower-cases
    characters and adds or removes underscores: with the underscores erased,
    the result is the lower-cased name with its underscores erased. *)
Theorem camel_to_snake_case_keeps_letters (s : string) :
  drop_underscores (camel_to_snake_case s) = lower (drop_underscores s).
Proof.
  unfold camel_to_snake_case, re_sub.
  rewrite drop_lstrip, drop_lower, drop_sub_from. reflexivity.
Qed.

Lemma lstrip_empty_iff s :
  lstrip_underscore s = EmptyString <-> all_chars is_underscore s = true.
Proof.
  induction s as [|c s IH]; [split; reflexivity|].
  cbn [lstrip_underscore all_chars]. unfold is_underscore at 1.
  destruct (Ascii.eqb c underscore); [exact IH|].
  split; discriminate.
Qed.

Lemma all_underscore_lower s :
  all_chars is_underscore (lower s) = all_chars is_underscore s.
Proof.
  induction s as [|c s IH]; [reflexivity|].
  cbn [lower all_chars]. unfold is_underscore at 1 3.
  rewrite lower_char_underscore, IH. reflexivity.
Qed.

Lemma all_underscore_sub_from p s :
  all_chars is_underscore (sub_from p s) = all_chars is_underscore s.
Proof.
  revert p. induction s as [|c s IH]; intros p; [reflexivity|].
  cbn [sub_from]. destruct (matches p c s); cbn [all_chars]; rewrite IH;
    reflexivity.
Qed.

(** X6: the result is the empty string exactly when the name consists of
    underscores only (the empty name included). *)
Theorem camel_to_snake_case_empty_iff (s : string) :
  camel_to_snake_case s = EmptyString <-> all_chars is_underscore s = true.
Proof.
  unfold camel_to_snake_case, re_sub.
  rewrite lstrip_empty_iff, all_underscore_lower, all_underscore_sub_from.
  reflexivity.
Qed.

Lemma AZ_not_az09 c : is_AZ c = true -> is_az09 c = false.
Proof. each_char c; intros H; discriminate H. Qed.

Lemma AZ_not_az c : is_AZ c = true -> is_az c = false.
Proof. each_char c; intros H; discriminate H. Qed.

Lemma AZ_not_underscore c : is_AZ c = true -> Ascii.eqb c underscore = false.
Proof. each_char c; intros H; discriminate H. Qed.

Lemma az09_not_AZ c : is_az09 c = true -> is_AZ c = false.
Proof. each_char c; intros H; discriminate H. Qed.

Lemma az09_not_underscore c : is_az09 c = true -> Ascii.eqb c underscore = false.
Proof. each_char c; intros H; discriminate H. Qed.

Lemma az09_lower c : is_az09 c = true -> lower_char c = c.
Proof. each_char c; intros H; discriminate H. Qed.

Lemma sub_from_capitals p s :
  lookbehind_az09 p = false -> all_chars is_AZ s = true -> sub_from p s = s.
Proof.
  revert p. induction s as [|c s IH]; intros p Hp; [reflexivity|].
  cbn [all_chars]. intros [Hc Hs]%andb_true_iff.
  cbn [sub_from]. rewrite IH by (cbn [lookbehind_az09]; auto using AZ_not_az09).
  assert (Hm : matches p c s = false).
  { unfold matches. rewrite Hp. cbn [andb orb].
    destruct s as [|d s']; cbn [lookahead_az]; [apply andb_false_r|].
    cbn [all_chars] in Hs. apply andb_true_iff in Hs as [Hd _].
    rewrite (AZ_not_az d Hd). apply andb_false_r. }
  rewrite Hm. reflexivity.
Qed.

(** X7: a name made of capital letters only, an acronym, is lower-cased and
    gets no underscore. *)
Theorem camel_to_snake_case_capitals (s : string) :
  all_chars is_AZ s = true -> camel_to_snake_case s = lower s.
Proof.
  intros H. unfold camel_to_snake_case, re_sub.
  rewrite (sub_from_capitals None s eq_refl H).
  apply lstrip_fixed. destruct s as [|c r]; [reflexivity|].
  cbn [lower startswith_underscore]. rewrite lower_char_underscore.
  cbn [all_chars] in H. apply andb_true_iff in H as [Hc _].
  apply AZ_not_underscore, Hc.
Qed.

Lemma camel_to_snake_case_capitals_witness :
  all_chars is_AZ "HTTP" = true /\ camel_to_snake_case "HTTP" = "http".
Proof.
  split; [reflexivity|].
  apply (camel_to_snake_case_capitals "HTTP"). reflexivity.
Defined.

(** ** The case converter: joining two names *)

Lemma lookahead_app u x v v' :
  lookahead_az (u +:+ String x v) = lookahead_az (u +:+ String x v').
Proof. destruct u; reflexivity. Qed.

Lemma sub_from_app p u x v :
  is_AZ x = false ->
  sub_from p (u +:+ String x v)
  = sub_from p (u +:+ String x EmptyString) +:+ sub_from (Some x) v.
Proof.
  intros Hx. revert p. induction u as [|y u IH]; intros p.
  - change (sub_from p (String x v)
            = sub_from p (String x EmptyString) +:+ sub_from (Some x) v).
    cbn [sub_from]. rewrite !(matches_needs_AZ p x _ Hx). reflexivity.
  - rewrite !append_cons. cbn [sub_from].
    unfold matches. rewrite (lookahead_app u x v EmptyString).
    fold (matches p y (u +:+ String x EmptyString)).
    destruct (matches p y (u +:+ String x EmptyString));
      rewrite !append_cons, IH; reflexivity.
Qed.

Lemma sub_from_last p u x :
  is_AZ x = false ->
  exists t, sub_from p (u +:+ String x EmptyString) = t +:+ String x EmptyString.
Proof.
  intros Hx. revert p. induction u as [|y u IH]; intros p.
  - exists EmptyString.
    change (sub_from p (String x EmptyString) = String x EmptyString).
    cbn [sub_from]. rewrite (matches_needs_AZ p x _ Hx). reflexivity.
  - rewrite append_cons. cbn [sub_from].
    destruct (IH (Some y)) as [t Ht]. rewrite Ht.
    destruct (matches p y (u +:+ String x EmptyString)).
    + exists (String underscore (String y t)). reflexivity.
    + exists (String y t). reflexivity.
Qed.

Lemma lower_app a b : lower (a +:+ b) = lower a +:+ lower b.
Proof.
  induction a as [|c a IH]; [reflexivity|].
  rewrite append_cons. cbn [lower]. rewrite append_cons, IH. reflexivity.
Qed.

Lemma lstrip_app_char a x b :
  Ascii.eqb x underscore = false ->
  lstrip_underscore (a +:+ String x b)
  = lstrip_underscore (a +:+ String x EmptyString) +:+ b.
Proof.
  intros Hx. induction a as [|c a IH].
  - change (lstrip_underscore (String x b)
            = lstrip_underscore (String x EmptyString) +:+ b).
    cbn [lstrip_underscore]. rewrite Hx. reflexivity.
  - rewrite !append_cons. cbn [lstrip_underscore].
    destruct (Ascii.eqb c underscore); [exact IH|].
    rewrite append_cons, append_assoc. reflexivity.
Qed.

(** X8: at a camel hump, a lower-case letter or digit followed by a capital,
    the conversion splits: the result is the conversion of the part up to the
    hump, an underscore, and the conversion of the part from the capital on. *)
Theorem camel_to_snake_case_hump (u w : string) (x C : ascii) :
  is_az09 x = true -> is_AZ C = true ->
  camel_to_snake_case (u +:+ String x (String C w))
  = camel_to_snake_case (u +:+ String x EmptyString)
    +:+ String underscore (camel_to_snake_case (String C w)).
Proof.
  intros Hx HC.
  pose proof (az09_not_AZ x Hx) as HxAZ.
  unfold camel_to_snake_case, re_sub.
  rewrite (sub_from_app None u x (String C w) HxAZ).
  destruct (sub_from_last None u x HxAZ) as [t Ht]. rewrite Ht.
  assert (Hm : matches (Some x) C w = true).
  { unfold matches. cbn [lookbehind_az09]. rewrite Hx, HC. reflexivity. }
  cbn [sub_from]. rewrite Hm.
  change (matches None C w) with false. cbn iota.
  rewrite !lower_app. cbn [lower]. rewrite (az09_lower x Hx).
  rewrite append_assoc, append_cons.
  change (EmptyString +:+ ?z) with z.
  rewrite (lstrip_app_char (lower t) x _ (az09_not_underscore x Hx)).
  f_equal.
  change (lower_char underscore) with underscore. f_equal.
  cbn [lstrip_underscore]. rewrite lower_char_underscore.
  rewrite (AZ_not_underscore C HC). reflexivity.
Qed.

Lemma camel_to_snake_case_hump_witness :
  is_az09 "2" = true /\ is_AZ "V" = true
  /\ camel_to_snake_case "ABTest2Variant"
     = camel_to_snake_case "ABTest2" +:+ "_" +:+ camel_to_snake_case "Variant".
Proof.
  split; [reflexivity|]. split; [reflexivity|].
  apply (camel_to_snake_case_hump "ABTest" "ariant" "2" "V"); reflexivity.
Defined.

(** ** The decision procedure: every case *)

Lemma is_same_refl a : is_same a a = true.
Proof. unfold is_same. apply Nat.eqb_refl. Qed.

(** X9: a class that declares [__tablename__] in its own dictionary, as a
    plain value or as a declared attr, gets false. *)
Theorem should_set_tablename_own_declaration (cls : pyclass) :
  declares_tablename (cls_self cls) -> should_set_tablename cls = false.
Proof.
  intros [v Hv]. unfold should_set_tablename.
  destruct (screened_out cls); [reflexivity|].
  unfold mro. rewrite (walk_at_declaration _ _ _ v Hv), is_same_refl.
  destruct (is_declared_attr v); reflexivity.
Qed.

Lemma should_set_tablename_own_declaration_witness :
  stated_tablename (cls_self tag_cls) = Some "tags"
  /\ should_set_tablename tag_cls = false.
Proof.
  split; [reflexivity|].
  apply (should_set_tablename_own_declaration tag_cls).
  exists (py_str "tags"). reflexivity.
Defined.

(** X10: when the first class of the MRO that declares [__tablename__]
    declares it as a declared attr, the procedure returns false; the class
    may be any ancestor, not only the candidate. *)
Theorem should_set_tablename_ancestor_deferred
    (cls : pyclass) (pre rest : list pytype) (base : pytype) (v : pyval) :
  mro cls = pre ++ base :: rest ->
  Forall (fun a => ~ declares_tablename a) pre ->
  ty_dict base !! "__tablename__" = Some v ->
  is_declared_attr v = true ->
  should_set_tablename cls = false.
Proof.
  intros Hmro Hpre Hdecl Hdeferred. unfold should_set_tablename.
  destruct (screened_out cls); [reflexivity|].
  rewrite Hmro, (walk_skip _ pre _ Hpre).
  rewrite (walk_at_declaration _ _ _ v Hdecl), Hdeferred. reflexivity.
Qed.

Lemma should_set_tablename_ancestor_deferred_witness :
  mro article_cls = [cls_self article_cls] ++ name_mixin_ty :: [model_ty; object_ty]
  /\ should_set_tablename article_cls = false.
Proof.
  split; [reflexivity|].
  apply (should_set_tablename_ancestor_deferred article_cls
           [cls_self article_cls] [model_ty; object_ty] name_mixin_ty declared_attr).
  - reflexivity.
  - constructor; [|constructor].
    unfold declares_tablename. vm_compute. intros [x Hx]. discriminate Hx.
  - reflexivity.
  - reflexivity.
Defined.

Lemma walk_true_iff (cls : pytype) (l : list pytype) :
  walk cls l = true <->
  Forall (fun a => ~ declares_tablename a) l
  \/ exists pre base rest v,
       l = pre ++ base :: rest
       /\ Forall (fun a => ~ declares_tablename a) pre
       /\ ty_dict base !! "__tablename__" = Some v
       /\ is_declared_attr v = false
       /\ ty_id base <> ty_id cls
       /\ marked_abstract base = false
       /\ ty_declarative base = true.
Proof.
  induction l as [|a l IH].
  - split; [left; constructor|reflexivity].
  - destruct (ty_dict a !! "__tablename__") as [w|] eqn:E.
    + rewrite (walk_at_declaration cls a l w E). split.
      * destruct (is_declared_attr w) eqn:Hw; [discriminate|].
        rewrite negb_true_iff, !orb_false_iff, negb_false_iff, is_same_false.
        intros [[Hid Habs] Hmap]. right. exists [], a, l, w.
        repeat split; try assumption. constructor.
      * intros [HF | (pre & base & rest & v & Heq & Hpre & Hd & Hv & Hid & Habs & Hmap)].
        -- apply Forall_cons in HF as [Ha _]. exfalso. apply Ha.
           unfold declares_tablename. rewrite E. eauto.
        -- destruct pre as [|a' pre].
           ++ simpl in Heq. injection Heq as -> ->.
              rewrite E in Hd. injection Hd as ->. rewrite Hv.
              rewrite negb_true_iff, !orb_false_iff, negb_false_iff, is_same_false.
              auto.
           ++ simpl in Heq. injection Heq as -> ->.
              apply Forall_cons in Hpre as [Ha _]. exfalso. apply Ha.
              unfold declares_tablename. rewrite E. eauto.
    + assert (Ha : ~ declares_tablename a).
      { unfold declares_tablename. rewrite E. intros [x Hx]. discriminate Hx. }
      cbn [walk]. rewrite E, IH. split.
      * intros [HF | (pre & base & rest & v & -> & Hpre & Hrest)].
        -- left. constructor; assumption.
        -- right. exists (a :: pre), base, rest, v. split; [reflexivity|].
           split; [constructor; assumption|exact Hrest].
      * intros [HF | (pre & base & rest & v & Heq & Hpre & Hd & Hrest)].
        -- left. apply Forall_cons in HF. apply HF.
        -- destruct pre as [|a' pre].
           ++ simpl in Heq. injection Heq as -> ->. congruence.
           ++ simpl in Heq. injection Heq as -> ->.
              apply Forall_cons in Hpre as [_ Hpre].
              right. exists pre, base, rest, v. auto.
Qed.

Lemma should_set_true_cases (cls : pyclass) :
  should_set_tablename cls = true <->
  marked_abstract (cls_self cls) = false
  /\ has_mapped_ancestor cls = true
  /\ (Forall (fun a => ~ declares_tablename a) (mro cls)
      \/ exists pre base rest v,
           mro cls = pre ++ base :: rest
           /\ Forall (fun a => ~ declares_tablename a) pre
           /\ ty_dict base !! "__tablename__" = Some v
           /\ is_declared_attr v = false
           /\ ty_id base <> ty_id (cls_self cls)
           /\ marked_abstract base = false
           /\ ty_declarative base = true).
Proof.
  rewrite <- walk_true_iff.
  pose proof (screened_out_false cls) as Hs.
  unfold should_set_tablename. destruct (screened_out cls).
  - split; [discriminate|]. intros (Ha & Hm & _).
    destruct Hs as [_ Hs]. discriminate (Hs (conj Ha Hm)).
  - destruct Hs as [Hs _]. destruct (Hs eq_refl) as [Ha Hm].
    split; [intros H; auto|intros (_ & _ & H); exact H].
Qed.

(** X11: the procedure returns true exactly when the class is not marked
    abstract, has a mapped ancestor, and either no class of its MRO declares
    [__tablename__] or the first one that does declares a plain value and is
    another class that is mapped and not marked abstract. *)
Theorem should_set_tablename_true_iff (cls : pyclass) :
  should_set_tablename cls = true <->
  marked_abstract (cls_self cls) = false
  /\ has_mapped_ancestor cls = true
  /\ (Forall (fun a => ~ declares_tablename a) (mro cls)
      \/ exists pre base rest v,
           mro cls = pre ++ base :: rest
           /\ Forall (fun a => ~ declares_tablename a) pre
           /\ ty_dict base !! "__tablename__" = Some v
           /\ is_declared_attr v = false
           /\ ty_id base <> ty_id (cls_self cls)
           /\ marked_abstract base = false
           /\ ty_declarative base = true).
Proof. apply should_set_true_cases. Qed.

Lemma name_mixin_declares : declares_tablename name_mixin_ty.
Proof. exists declared_attr. reflexivity. Qed.

(** X12: for a class that has [NameMixin] in its MRO the procedure never
    takes its default: it returns true only when a class that comes before
    [NameMixin] in the MRO declares a plain [__tablename__] and is another
    class, mapped and not marked abstract. *)
Theorem should_set_tablename_with_mixin (cls : pyclass) :
  In name_mixin_ty (mro cls) ->
  should_set_tablename cls = true ->
  exists pre base rest v,
    mro cls = pre ++ base :: rest
    /\ Forall (fun a => ~ declares_tablename a) pre
    /\ ~ In name_mixin_ty pre
    /\ ty_dict base !! "__tablename__" = Some v
    /\ is_declared_attr v = false
    /\ ty_id base <> ty_id (cls_self cls)
    /\ marked_abstract base = false
    /\ ty_declarative base = true.
Proof.
  intros Hin Htrue.
  apply should_set_true_cases in Htrue
    as (_ & _ & [HF | (pre & base & rest & v & Hmro & Hpre & Hrest)]).
  - exfalso. rewrite List.Forall_forall in HF.
    apply (HF _ Hin), name_mixin_declares.
  - exists pre, base, rest, v. split; [exact Hmro|]. split; [exact Hpre|].
    split; [|exact Hrest].
    intros Hin'. rewrite List.Forall_forall in Hpre.
    apply (Hpre _ Hin'), name_mixin_declares.
Qed.

Lemma should_set_tablename_with_mixin_witness :
  should_set_tablename special_cls = true
  /\ exists pre base rest v,
       mro special_cls = pre ++ base :: rest
       /\ Forall (fun a => ~ declares_tablename a) pre
       /\ ~ In name_mixin_ty pre
       /\ ty_dict base !! "__tablename__" = Some v
       /\ is_declared_attr v = false
       /\ ty_id base <> ty_id (cls_self special_cls)
       /\ marked_abstract base = false
       /\ ty_declarative base = true.
Proof.
  split; [reflexivity|].
  apply (should_set_tablename_with_mixin special_cls).
  - right. right. right. left. reflexivity.
  - reflexivity.
Defined.

(** ** The table-name hook: which [id] counts *)

(** X13: the nearest class of the MRO that provides [id] decides: the hook
    returns the snake-cased class name when what [cls.id] yields for that
    entry (the entry itself, or the value of its function for a declared
    attr) has a true [primary_key], and [None] when it has not, whatever the
    classes after it provide. *)
Theorem tablename_nearest_id
    (cls : pyclass) (pre rest : list pytype) (b : pytype) (v : pyval) :
  mro cls = pre ++ b :: rest ->
  Forall (fun a => ty_dict a !! "id" = None) pre ->
  ty_dict b !! "id" = Some v ->
  NameMixin.__tablename__ cls
  = if getattr_primary_key v
    then Some (camel_to_snake_case (ty_name (cls_self cls)))
    else None.
Proof.
  intros Hmro Hpre Hb. unfold NameMixin.__tablename__, class_getattr.
  rewrite Hmro, (mro_lookup_skip pre _ "id" Hpre). cbn [mro_lookup].
  rewrite Hb. reflexivity.
Qed.

Lemma tablename_nearest_id_witness :
  (own_primary_key_id note_cls = false
   /\ mro_lookup (cls_ancestors note_cls) "id" = Some (column true)
   /\ NameMixin.__tablename__ note_cls = None)
  /\ (ty_dict id_mixin_ty !! "id" = Some (declared_column true)
      /\ NameMixin.__tablename__ thing_cls = Some "thing").
Proof.
  split.
  - split; [reflexivity|]. split; [reflexivity|].
    apply (tablename_nearest_id note_cls [] [person_ty; model_ty; object_ty]
             (cls_self note_cls) (column false)).
    + reflexivity.
    + constructor.
    + reflexivity.
  - split; [reflexivity|].
    apply (tablename_nearest_id thing_cls [cls_self thing_cls]
             [model_ty; object_ty] id_mixin_ty (declared_column true)).
    + reflexivity.
    + repeat constructor.
    + reflexivity.
Defined.

(** X14: when no class of the MRO provides [id], the hook returns [None]. *)
Theorem tablename_without_id (cls : pyclass) :
  Forall (fun a => ty_dict a !! "id" = None) (mro cls) ->
  NameMixin.__tablename__ cls = None.
Proof.
  intros H. unfold NameMixin.__tablename__, class_getattr.
  rewrite (mro_lookup_absent _ _ H). reflexivity.
Qed.

Lemma tablename_without_id_witness : NameMixin.__tablename__ bare_cls = None.
Proof.
  apply (tablename_without_id bare_cls). repeat constructor.
Defined.

(** X15: the hook does not look at [__abstract__]: for a class marked
    abstract that provides its own primary-key [id], the decision procedure
    returns false and the hook still returns the snake-cased class name. *)
Theorem tablename_ignores_abstract (cls : pyclass) :
  marked_abstract (cls_self cls) = true ->
  own_primary_key_id cls = true ->
  should_set_tablename cls = false
  /\ NameMixin.__tablename__ cls
     = Some (camel_to_snake_case (ty_name (cls_self cls))).
Proof.
  intros Habs Hpk. split.
  - apply should_set_screened. unfold screened_out.
    fold (marked_abstract (cls_self cls)). rewrite Habs. reflexivity.
  - apply tablename_follows_attribute_lookup, Hpk.
Qed.

Lemma tablename_ignores_abstract_witness :
  should_set_tablename stamped_cls = false
  /\ NameMixin.__tablename__ stamped_cls = Some "stamped".
Proof.
  apply (tablename_ignores_abstract stamped_cls); reflexivity.
Defined.

(** X16: a name the hook returns is the converted class name, so it holds
    none of the letters [A-Z], does not begin with an underscore, and is
    empty exactly when the class name consists of underscores only. *)
Theorem tablename_well_formed (cls : pyclass) (name : string) :
  NameMixin.__tablename__ cls = Some name ->
  name = camel_to_snake_case (ty_name (cls_self cls))
  /\ all_chars (fun c => negb (is_AZ c)) name = true
  /\ startswith_underscore name = false
  /\ (name = EmptyString <->
      all_chars is_underscore (ty_name (cls_self cls)) = true).
Proof.
  intros H. apply tablename_follows_attribute_lookup in H as [-> _].
  split; [reflexivity|]. split.
  { generalize (snake_case_not_upper (ty_name (cls_self cls))).
    apply all_chars_impl. intros c Hc.
    rewrite (not_upper_not_AZ c Hc). reflexivity. }
  split; [apply snake_case_no_leading|].
  unfold camel_to_snake_case, re_sub.
  rewrite lstrip_empty_iff, all_underscore_lower, all_underscore_sub_from.
  reflexivity.
Qed.

Lemma tablename_well_formed_witness :
  NameMixin.__tablename__ user_account_cls = Some "user_account"
  /\ all_chars (fun c => negb (is_AZ c)) "user_account" = true
  /\ startswith_underscore "user_account" = false.
Proof.
  split; [reflexivity|].
  destruct (tablename_well_formed user_account_cls "user_account" eq_refl)
    as (_ & Hu & Hl & _).
  split; [exact Hu|exact Hl].
Defined.

(** ** The representation formatter: what it tells apart *)

Lemma length_append a b :
  String.length (a +:+ b) = String.length a + String.length b.
Proof.
  induction a as [|c a IH]; [reflexivity|].
  rewrite append_cons. cbn [String.length]. rewrite IH. reflexivity.
Qed.

Lemma append_inv_head a x y : a +:+ x = a +:+ y -> x = y.
Proof.
  induction a as [|c a IH]; [exact (fun H => H)|].
  rewrite !append_cons. intros [= H]. exact (IH H).
Qed.

Lemma append_inv_tail t x y : x +:+ t = y +:+ t -> x = y.
Proof.
  revert y. induction x as [|c x IH]; intros [|d y] H.
  - reflexivity.
  - apply (f_equal String.length) in H. rewrite !length_append in H.
    cbn [String.length] in H. lia.
  - apply (f_equal String.length) in H. rewrite !length_append in H.
    cbn [String.length] in H. lia.
  - rewrite !append_cons in H. injection H as -> H.
    rewrite (IH y H). reflexivity.
Qed.

Lemma to_int_proper (n : Z) :
  Z.to_int n <> Decimal.Pos Decimal.Nil /\ Z.to_int n <> Decimal.Neg Decimal.Nil.
Proof.
  destruct n as [|p|p]; cbn [Z.to_int]; split; try discriminate;
    intros [= H]; exact (DecimalPos.Unsigned.to_uint_nonnil p H).
Qed.

(** [str] is injective on the integers. *)
Lemma str_int_inj (m n : Z) : Base.str_int m = Base.str_int n -> m = n.
Proof.
  unfold Base.str_int. intros H. apply DecimalZ.to_int_inj.
  destruct (to_int_proper m) as [Hm1 Hm2], (to_int_proper n) as [Hn1 Hn2].
  pose proof (NilZero.isi _ Hm1 Hm2) as Em.
  pose proof (NilZero.isi _ Hn1 Hn2) as En.
  rewrite H in Em. congruence.
Qed.

(** X17: the representation of a persisted instance does not depend on
    [id(self)]: two objects of classes with one name and with one identity
    tuple render alike. *)
Theorem repr_persisted_ignores_handle (a b : Base.instance) (key : list Base.keyval) :
  ty_name (Base.inst_type a) = ty_name (Base.inst_type b) ->
  Base.inst_state a = Base.Persisted key ->
  Base.inst_state b = Base.Persisted key ->
  Base.__repr__ a = Base.__repr__ b.
Proof.
  intros Hname Ha Hb. rewrite !repr_unfold, Hname, Ha, Hb. reflexivity.
Qed.

Lemma repr_persisted_ignores_handle_witness :
  Base.inst_handle stored_article <> Base.inst_handle stored_article_again
  /\ Base.__repr__ stored_article = Base.__repr__ stored_article_again.
Proof.
  split; [discriminate|].
  apply (repr_persisted_ignores_handle stored_article stored_article_again
           [Base.KInt 3]); reflexivity.
Defined.

(** X18: among transient instances, and among pending ones, of classes with
    one name, different objects render differently: the representation
    determines [id(self)]. *)
Theorem repr_tells_unsaved_apart (a b : Base.instance) :
  ty_name (Base.inst_type a) = ty_name (Base.inst_type b) ->
  Base.inst_state a = Base.inst_state b ->
  Base.transient (Base.inst_state a) || Base.pending (Base.inst_state a) = true ->
  Base.inst_handle a <> Base.inst_handle b ->
  Base.__repr__ a <> Base.__repr__ b.
Proof.
  intros Hname Hstate Hunsaved Hne H. apply Hne. apply str_int_inj.
  rewrite !repr_unfold, Hname, <- Hstate in H.
  apply (append_inv_head "<") in H. apply append_inv_head in H.
  apply (append_inv_head " ") in H.
  destruct (Base.inst_state a); cbn in H; try discriminate Hunsaved.
  - rewrite !append_assoc in H. apply append_inv_head in H.
    apply append_inv_tail in H. exact H.
  - rewrite !append_assoc in H. apply append_inv_head in H.
    apply append_inv_tail in H. exact H.
Qed.

Lemma repr_tells_unsaved_apart_witness :
  Base.__repr__ new_article <> Base.__repr__ second_new_article.
Proof.
  apply (repr_tells_unsaved_apart new_article second_new_article);
    [reflexivity|reflexivity|reflexivity|discriminate].
Defined.

(** X19: a transient and a pending instance of classes with one name never
    render alike, whatever their [id(self)]. *)
Theorem repr_transient_not_pending (a b : Base.instance) :
  ty_name (Base.inst_type a) = ty_name (Base.inst_type b) ->
  Base.inst_state a = Base.Transient ->
  Base.inst_state b = Base.Pending ->
  Base.__repr__ a <> Base.__repr__ b.
Proof.
  intros Hname Ha Hb H.
  rewrite !repr_unfold, Hname, Ha, Hb in H.
  apply (append_inv_head "<") in H. apply append_inv_head in H.
  cbn [Base.transient Base.pending] in H.
  rewrite !append_cons in H. discriminate H.
Qed.

Lemma repr_transient_not_pending_witness :
  Base.__repr__ new_article <> Base.__repr__ other_new_article.
Proof.
  apply (repr_transient_not_pending new_article other_new_article);
    reflexivity.
Defined.

(** ** The converter beyond code point 255 *)

Lemma wide_matches_low p c r :
  Wide.matches (option_map Wide.Low p) (Wide.Low c) (Wide.of_string r)
  = matches p c r.
Proof. destruct p, r; reflexivity. Qed.

Lemma wide_sub_from_low p s :
  Wide.sub_from (option_map Wide.Low p) (Wide.of_string s)
  = Wide.of_string (sub_from p s).
Proof.
  revert p. induction s as [|c s IH]; intros p; [reflexivity|].
  cbn [Wide.of_string Wide.sub_from sub_from].
  pose proof (IH (Some c)) as IH'. cbn [option_map] in IH'.
  rewrite wide_matches_low, IH'.
  destruct (matches p c s); reflexivity.
Qed.

Lemma wide_lower_low s :
  Wide.lower (Wide.of_string s) = Wide.of_string (lower s).
Proof.
  induction s as [|c s IH]; [reflexivity|].
  cbn [Wide.of_string lower]. unfold Wide.lower in *. cbn [map Wide.lower_char].
  rewrite IH. reflexivity.
Qed.

Lemma wide_lstrip_low s :
  Wide.lstrip_underscore (Wide.of_string s)
  = Wide.of_string (lstrip_underscore s).
Proof.
  induction s as [|c s IH]; [reflexivity|].
  cbn [Wide.of_string Wide.lstrip_underscore lstrip_underscore Wide.is_underscore].
  destruct (Ascii.eqb c underscore); [exact IH|reflexivity].
Qed.

(** On the strings of code points below 256 the wider converter is the
    converter of the first part of this file. *)
Lemma wide_agrees (s : string) :
  Wide.camel_to_snake_case (Wide.of_string s)
  = Wide.of_string (camel_to_snake_case s).
Proof.
  unfold Wide.camel_to_snake_case, Wide.re_sub, camel_to_snake_case, re_sub.
  pose proof (wide_sub_from_low None s) as Hsub. cbn [option_map] in Hsub.
  rewrite Hsub, wide_lower_low, wide_lstrip_low. reflexivity.
Qed.










